(** * Shallow embedding of [golem/task/docker_job.py]

    The module drives one Docker container through its lifecycle
    ([DockerJob]) and validates image references ([DockerImage]).  The
    Docker daemon is an external collaborator: it is modelled as an
    arbitrary deterministic oracle ([Runtime]) that answers each client
    request as a function of the requests issued before it.  Python
    exceptions are the constructors of [exc]; side effects made before an
    exception (fields assigned, files written, requests issued) persist, as
    they do in Python. *)

From Stdlib Require Import String Ascii List ZArith NArith Bool Lia.
Import ListNotations.
Open Scope string_scope.
#[local] Set Warnings "-register-all".

(* ------------------------------------------------------------------ *)
(** ** Python values, exceptions and helpers *)

(** Exceptions the code raises or lets through.  [NotFound] and [APIError]
    are [docker.errors.NotFound] / [docker.errors.APIError]. *)
Inductive exc : Type :=
| NotFound
| APIError
| ValueError
| AssertionError
| KeyError.

Inductive result (A : Type) : Type :=
| Ok (a : A)
| Err (e : exc).
Arguments Ok {A} a.
Arguments Err {A} e.

(** JSON scalars as returned by the Docker API ([None] is [JNull]). *)
Inductive json : Type :=
| JNull
| JStr (s : string).

(** Python truthiness of a JSON scalar. *)
Definition json_truthy (v : json) : bool :=
  match v with
  | JNull => false
  | JStr s => negb (String.eqb s EmptyString)
  end.

(** A response dict of the Docker API, in key order. *)
Definition pydict := list (string * json).

Fixpoint dict_get {V} (k : string) (d : list (string * V)) : option V :=
  match d with
  | [] => None
  | (k', v) :: d' => if String.eqb k k' then Some v else dict_get k d'
  end.

(** [d[k] = v] on a Python dict: overwrite in place, or append. *)
Fixpoint dict_set {V} (k : string) (v : V) (d : list (string * V))
  : list (string * V) :=
  match d with
  | [] => [(k, v)]
  | (k', v') :: d' =>
      if String.eqb k k' then (k, v) :: d' else (k', v') :: dict_set k v d'
  end.

(** Parameter values: the serialisable Python 2 values a job receives. *)
Inductive pyval : Type :=
| PInt (z : Z)
| PStr (s : string)
| PBool (b : bool)
| PNone
| PList (l : list pyval).

Definition chr (n : nat) : string := String (ascii_of_nat n) EmptyString.
Definition NL : string := chr 10.

Definition digit (n : N) : string := chr (48 + N.to_nat n).

Fixpoint digits_aux (fuel : nat) (n : N) (acc : string) : string :=
  match fuel with
  | O => acc
  | S f =>
      if (n <? 10)%N then digit n ++ acc
      else digits_aux f (n / 10)%N (digit (n mod 10)%N ++ acc)
  end.

Definition str_N (n : N) : string := digits_aux (S (N.size_nat n)) n EmptyString.

(** [repr] of a Python [int]. *)
Definition repr_int (z : Z) : string :=
  match z with
  | Zneg p => "-" ++ str_N (Npos p)
  | _ => str_N (Z.to_N z)
  end.

Definition hexdigit (n : nat) : string :=
  if Nat.ltb n 10 then chr (48 + n) else chr (87 + n).

(** One character of Python 2 [str.__repr__], given the chosen quote. *)
Definition repr_char (q c : ascii) : string :=
  let n := nat_of_ascii c in
  if Ascii.eqb c q || Ascii.eqb c "\" then String "\" (String c EmptyString)
  else if Nat.eqb n 9 then "\t"
  else if Nat.eqb n 10 then "\n"
  else if Nat.eqb n 13 then "\r"
  else if Nat.ltb n 32 || Nat.leb 127 n then
    "\x" ++ hexdigit (n / 16) ++ hexdigit (n mod 16)
  else String c EmptyString.

Fixpoint str_contains (c : ascii) (s : string) : bool :=
  match s with
  | EmptyString => false
  | String c' s' => Ascii.eqb c c' || str_contains c s'
  end.

Fixpoint repr_chars (q : ascii) (s : string) : string :=
  match s with
  | EmptyString => EmptyString
  | String c s' => repr_char q c ++ repr_chars q s'
  end.

(** [repr] of a Python 2 [str]: single quotes unless the text contains a
    single quote and no double quote. *)
Definition repr_str (s : string) : string :=
  let dq := ascii_of_nat 34 in
  let q := if str_contains "'" s && negb (str_contains dq s)
           then dq else "'"%char in
  String q (repr_chars q s ++ String q EmptyString).

Fixpoint join (sep : string) (l : list string) : string :=
  match l with
  | [] => EmptyString
  | [x] => x
  | x :: l' => x ++ sep ++ join sep l'
  end.

Fixpoint repr (v : pyval) : string :=
  match v with
  | PInt z => repr_int z
  | PStr s => repr_str s
  | PBool true => "True"
  | PBool false => "False"
  | PNone => "None"
  | PList l => "[" ++ join ", " (map repr l) ++ "]"
  end.

Fixpoint ends_with_slash (s : string) : bool :=
  match s with
  | EmptyString => false
  | String c EmptyString => Ascii.eqb c "/"
  | String _ s' => ends_with_slash s'
  end.

(** [os.path.join(a, b)] (posixpath). *)
Definition path_join (a b : string) : string :=
  match b with
  | String "/" _ => b
  | _ => if String.eqb a EmptyString || ends_with_slash a then a ++ b else a ++ "/" ++ b
  end.

(* ------------------------------------------------------------------ *)
(** ** The Docker runtime *)

(** Arguments of [client.create_container]; [host_cfg] is the [binds]
    dict given to [client.create_host_config], which builds it locally. *)
Record create_args : Type := {
  ca_image : string;
  ca_volumes : list string;
  ca_binds : list (string * (string * string));  (* host -> (bind, mode) *)
  ca_network_disabled : bool;
  ca_entrypoint : list string;
  ca_working_dir : string }.

(** Requests the client sends to the daemon. *)
Inductive request : Type :=
| ReqInspectImage (key : string)
| ReqCreateContainer (a : create_args)
| ReqStart (cid : json)
| ReqInspectContainer (cid : json)
| ReqKill (cid : json)
| ReqRemoveContainer (cid : json) (force : bool)
| ReqWait (cid : json) (timeout : option Z)
| ReqLogs (cid : json).

(** The metadata of [client.inspect_image]: [None] stands for a falsy
    (empty) answer. *)
Record image_info : Type := {
  RepoTags : list string;
  Id : string }.

(** The daemon: any deterministic answer to each request, given the
    requests issued before it (oldest first).  [rt_inspect_container]
    answers [inspect["State"]["Status"]]. *)
Record Runtime : Type := {
  rt_inspect_image : list request -> string -> result (option image_info);
  rt_create_container : list request -> create_args -> result pydict;
  rt_start : list request -> json -> result unit;
  rt_inspect_container : list request -> json -> result string;
  rt_kill : list request -> json -> result unit;
  rt_remove_container : list request -> json -> bool -> result unit;
  rt_wait : list request -> json -> option Z -> result Z;
  rt_logs : list request -> json -> result string }.

(* ------------------------------------------------------------------ *)
(** ** A state and exception monad *)

Definition M (S A : Type) : Type := S -> S * result A.

Definition ret {S A} (a : A) : M S A := fun s => (s, Ok a).
Definition raise {S A} (e : exc) : M S A := fun s => (s, Err e).
Definition bind {S A B} (m : M S A) (f : A -> M S B) : M S B :=
  fun s => match m s with
           | (s', Ok a) => f a s'
           | (s', Err e) => (s', Err e)
           end.
Definition get {S} : M S S := fun s => (s, Ok s).
Definition put {S} (s : S) : M S unit := fun _ => (s, Ok tt).

(** [try m except: h]: the handler sees the exception and the state left. *)
Definition catch {S A} (m : M S A) (h : exc -> M S A) : M S A :=
  fun s => match m s with
           | (s', Ok a) => (s', Ok a)
           | (s', Err e) => h e s'
           end.

Notation "x <- m ;; k" := (bind m (fun x => k))
  (at level 61, m at next level, right associativity).
Notation "m ;;; k" := (bind m (fun _ => k))
  (at level 61, right associativity).

(** [assert cond] *)
Definition assert {S} (b : bool) : M S unit :=
  if b then ret tt else raise AssertionError.

(* ------------------------------------------------------------------ *)
(** ** [DockerImage] *)

Record DockerImage : Type := {
  img_repository : string;
  img_id : option string;   (* [None] is Python [None] *)
  img_tag : string;
  img_name : string }.

Definition opt_truthy (o : option string) : bool :=
  match o with None => false | Some s => negb (String.eqb s EmptyString) end.

Section Image.
Variable rt : Runtime.

(** Image queries only issue requests: the state is the request log. *)
Definition IM := M (list request).

Definition inspect_image (key : string) : IM (option image_info) :=
  fun h => ((h ++ [ReqInspectImage key])%list, rt_inspect_image rt h key).

(** The key [_check] queries: the id when it is truthy, else the name. *)
Definition query_key (img : DockerImage) : string :=
  match img_id img with
  | Some i => if opt_truthy (img_id img) then i else img_name img
  | None => img_name img
  end.

(** [self.name in info["RepoTags"] and (self.id is None or info["Id"] == self.id)] *)
Definition image_matches (img : DockerImage) (i : image_info) : bool :=
  existsb (String.eqb (img_name img)) (RepoTags i) &&
  match img_id img with
  | None => true
  | Some id => String.eqb (Id i) id
  end.

(** [DockerImage._check] *)
Definition check (img : DockerImage) : IM bool :=
  info <- inspect_image (query_key img) ;;
  match info with
  | None => raise AssertionError                   (* assert info *)
  | Some i => ret (image_matches img i)
  end.

Definition image_fields (repository : string) (id tag : option string)
  : DockerImage :=
  let t := if opt_truthy tag then match tag with Some t => t | None => EmptyString end
           else "latest" in
  {| img_repository := repository; img_id := id; img_tag := t;
     img_name := repository ++ ":" ++ t |}.

(** [DockerImage.__init__] *)
Definition new_image (repository : string) (id tag : option string)
  : IM DockerImage :=
  let img := image_fields repository id tag in
  ok <- check img ;;
  if ok then ret img else raise ValueError.

(** The [try] block of [DockerImage.is_available]. *)
Definition is_available_body (repository : string) (id tag : option string)
  : IM bool :=
  image <- new_image repository id tag ;; check image.

(** [DockerImage.is_available] *)
Definition is_available (repository : string) (id tag : option string)
  : IM bool :=
  catch (is_available_body repository id tag)
        (fun e => match e with
                  | NotFound => ret false
                  | APIError => match tag with
                                | Some _ => ret false
                                | None => raise APIError
                                end
                  | ValueError => ret false
                  | e => raise e
                  end).

End Image.

(* ------------------------------------------------------------------ *)
(** ** [DockerJob] *)

Definition STATE_NEW := "new".
Definition STATE_CREATED := "created".
Definition STATE_RUNNING := "running".
Definition STATE_EXITED := "exited".
Definition STATE_STOPPED := "stopped".
Definition STATE_KILLED := "killed".
Definition STATE_REMOVED := "removed".

Definition TASK_SCRIPT := "job.py".
Definition PARAMS_FILE := "params.py".
Definition RESOURCES_DIR := "/golem/resources/".
Definition OUTPUT_DIR := "/golem/output/".

(** The fields of a [DockerJob] object.  [container] is [None] (Python
    [None]) or the dict returned by [create_container]; [container_log]
    is never read and is left out. *)
Record DockerJob : Type := {
  image : DockerImage;
  script_src : string;
  parameters : list (string * pyval);   (* dict, in iteration order *)
  work_dir : string;
  resource_dir : string;
  output_dir : string;
  task_dir : string;
  container : option pydict;
  container_id : json;
  state : string }.

(** [if self.container:] *)
Definition has_container (j : DockerJob) : bool :=
  match container j with
  | None => false
  | Some d => match d with [] => false | _ => true end
  end.

(** [DockerJob.__init__] *)
Definition new_job (image : DockerImage) (script_src : string)
  (parameters : option (list (string * pyval)))
  (work_dir resource_dir output_dir : string) : DockerJob :=
  {| image := image; script_src := script_src;
     parameters := match parameters with Some p => p | None => [] end;
     work_dir := work_dir; resource_dir := resource_dir;
     output_dir := output_dir;
     task_dir := resource_dir ++ "/" ++ work_dir;
     container := None; container_id := JNull; state := STATE_NEW |}.

Definition set_script_src (s : string) (j : DockerJob) : DockerJob :=
  {| image := image j; script_src := s; parameters := parameters j;
     work_dir := work_dir j; resource_dir := resource_dir j;
     output_dir := output_dir j; task_dir := task_dir j;
     container := container j; container_id := container_id j;
     state := state j |}.

Definition set_container (c : option pydict) (j : DockerJob) : DockerJob :=
  {| image := image j; script_src := script_src j; parameters := parameters j;
     work_dir := work_dir j; resource_dir := resource_dir j;
     output_dir := output_dir j; task_dir := task_dir j;
     container := c; container_id := container_id j; state := state j |}.

Definition set_container_id (c : json) (j : DockerJob) : DockerJob :=
  {| image := image j; script_src := script_src j; parameters := parameters j;
     work_dir := work_dir j; resource_dir := resource_dir j;
     output_dir := output_dir j; task_dir := task_dir j;
     container := container j; container_id := c; state := state j |}.

Definition set_state (s : string) (j : DockerJob) : DockerJob :=
  {| image := image j; script_src := script_src j; parameters := parameters j;
     work_dir := work_dir j; resource_dir := resource_dir j;
     output_dir := output_dir j; task_dir := task_dir j;
     container := container j; container_id := container_id j; state := s |}.

(** The whole observable state: the job object, the host files written
    (path, content; latest write last) and the requests issued, each with
    the job's cached [state] at the moment it was sent. *)
Record St : Type := {
  st_job : DockerJob;
  st_fs : list (string * string);
  st_trace : list (request * string) }.

Definition JM := M St.

Definition get_job : JM DockerJob := fun s => (s, Ok (st_job s)).

Definition modify_job (f : DockerJob -> DockerJob) : JM unit :=
  fun s => ({| st_job := f (st_job s); st_fs := st_fs s;
               st_trace := st_trace s |}, Ok tt).

(** [open(p, "w").write(content)] *)
Definition write_file (p content : string) : JM unit :=
  fun s => ({| st_job := st_job s; st_fs := dict_set p content (st_fs s);
               st_trace := st_trace s |}, Ok tt).

Definition requests (s : St) : list request := map fst (st_trace s).

Section Job.
Variable rt : Runtime.

(** Send one request to the daemon. *)
Definition call {A} (r : request) (answer : list request -> result A)
  : JM A :=
  fun s => ({| st_job := st_job s; st_fs := st_fs s;
               st_trace := (st_trace s ++ [(r, state (st_job s))])%list |},
            answer (requests s)).

(** [DockerJob.get_status] *)
Definition get_status : JM string :=
  j <- get_job ;;
  if has_container j then
    call (ReqInspectContainer (container_id j))
         (fun h => rt_inspect_container rt h (container_id j))
  else ret (state j).

Definition params_line (kv : string * pyval) : string :=
  fst kv ++ " = " ++ repr (snd kv) ++ NL.

Definition params_content (ps : list (string * pyval)) : string :=
  fold_left (fun acc kv => acc ++ params_line kv) ps EmptyString.

Definition get_script_path (j : DockerJob) : string :=
  path_join (task_dir j) TASK_SCRIPT.
Definition get_params_path (j : DockerJob) : string :=
  path_join (task_dir j) PARAMS_FILE.

Definition IMPORT_PARAMS : string := "from params import *" ++ NL ++ NL.

Definition container_args (j : DockerJob) : create_args :=
  {| ca_image := img_name (image j);
     ca_volumes := [RESOURCES_DIR; OUTPUT_DIR];
     ca_binds := dict_set (output_dir j) (OUTPUT_DIR, "rw")
                   (dict_set (resource_dir j) (RESOURCES_DIR, "ro") []);
     ca_network_disabled := true;
     ca_entrypoint := ["/usr/bin/python"; "job.py"];
     ca_working_dir := RESOURCES_DIR ++ "/" ++ work_dir j |}.

(** [DockerJob._prepare] *)
Definition prepare : JM unit :=
  j <- get_job ;;
  (match parameters j with
   | [] => ret tt
   | ps => write_file (get_params_path j) (params_content ps) ;;;
           modify_job (set_script_src (IMPORT_PARAMS ++ script_src j))
   end) ;;;
  j <- get_job ;;
  write_file (get_script_path j) (script_src j) ;;;
  c <- call (ReqCreateContainer (container_args j))
            (fun h => rt_create_container rt h (container_args j)) ;;
  modify_job (set_container (Some c)) ;;;
  match dict_get "Id" c with
  | None => raise KeyError
  | Some cid => modify_job (set_container_id cid) ;;;
                assert (json_truthy cid)
  end.

(** [DockerJob._cleanup] *)
Definition cleanup : JM unit :=
  j <- get_job ;;
  if has_container j then
    st <- get_status ;;
    (if String.eqb st STATE_RUNNING then
       j <- get_job ;;
       call (ReqKill (container_id j)) (fun h => rt_kill rt h (container_id j)) ;;;
       modify_job (set_state STATE_KILLED)
     else ret tt) ;;;
    j <- get_job ;;
    call (ReqRemoveContainer (container_id j) true)
         (fun h => rt_remove_container rt h (container_id j) true) ;;;
    modify_job (set_container None) ;;;
    modify_job (set_container_id JNull) ;;;
    modify_job (set_state STATE_REMOVED)
  else ret tt.

(** [DockerJob.start]; the code returns the whole inspect dict, of which
    the daemon model answers only [["State"]["Status"]]. *)
Definition start : JM (option string) :=
  st <- get_status ;;
  if String.eqb st STATE_CREATED then
    j <- get_job ;;
    call (ReqStart (container_id j)) (fun h => rt_start rt h (container_id j)) ;;;
    r <- call (ReqInspectContainer (container_id j))
              (fun h => rt_inspect_container rt h (container_id j)) ;;
    modify_job (set_state r) ;;;
    ret (Some r)
  else ret None.

(** [DockerJob.wait] *)
Definition wait (timeout : option Z) : JM Z :=
  st <- get_status ;;
  if existsb (String.eqb st) [STATE_RUNNING; STATE_EXITED] then
    j <- get_job ;;
    call (ReqWait (container_id j) timeout)
         (fun h => rt_wait rt h (container_id j) timeout)
  else ret (-1)%Z.

(** [DockerJob.get_logs] *)
Definition get_logs : JM (option string) :=
  j <- get_job ;;
  if has_container j then
    l <- call (ReqLogs (container_id j))
              (fun h => rt_logs rt h (container_id j)) ;;
    ret (Some l)
  else ret None.

End Job.

(** A driver operation, as a caller invokes it; results are dropped and an
    exception is caught by the caller, the job keeping what it holds. *)
Inductive op : Type :=
| OpPrepare
| OpStart
| OpWait (timeout : option Z)
| OpCleanup
| OpGetStatus
| OpGetLogs.

Definition run_op (rt : Runtime) (o : op) : JM unit :=
  match o with
  | OpPrepare => prepare rt
  | OpStart => start rt ;;; ret tt
  | OpWait t => wait rt t ;;; ret tt
  | OpCleanup => cleanup rt
  | OpGetStatus => get_status rt ;;; ret tt
  | OpGetLogs => get_logs rt ;;; ret tt
  end.

Fixpoint run_ops (rt : Runtime) (ops : list op) (s : St) : St :=
  match ops with
  | [] => s
  | o :: os => run_ops rt os (fst (run_op rt o s))
  end.

Definition init_st (j : DockerJob) : St :=
  {| st_job := j; st_fs := []; st_trace := [] |}.

(* ------------------------------------------------------------------ *)
(** ** Sample daemons used to evaluate the model *)

Definition is_start (r : request) : bool :=
  match r with ReqStart _ => true | _ => false end.

(** A daemon that knows one image and whose container runs once started. *)
Definition sample_runtime : Runtime :=
  {| rt_inspect_image := fun _ k =>
       if String.eqb k "golem/base:latest" || String.eqb k "sha256:ab"
       then Ok (Some {| RepoTags := ["golem/base:latest"]; Id := "sha256:ab" |})
       else Err NotFound;
     rt_create_container := fun _ _ => Ok [("Id", JStr "c1"); ("Warnings", JNull)];
     rt_start := fun _ _ => Ok tt;
     rt_inspect_container := fun h _ =>
       if existsb is_start h then Ok STATE_RUNNING else Ok STATE_CREATED;
     rt_kill := fun _ _ => Ok tt;
     rt_remove_container := fun _ _ _ => Ok tt;
     rt_wait := fun _ _ _ => Ok 0%Z;
     rt_logs := fun _ _ => Ok "hello" |}.

Definition sample_image : DockerImage := image_fields "golem/base" None None.

Definition sample_job : DockerJob :=
  new_job sample_image "print(x)" (Some [("x", PInt 3); ("y", PStr "a")])
          "job1" "R" "O".

(** The same daemon, but the container has vanished: inspecting it fails. *)
Definition vanished_container_runtime : Runtime :=
  {| rt_inspect_image := rt_inspect_image sample_runtime;
     rt_create_container := rt_create_container sample_runtime;
     rt_start := rt_start sample_runtime;
     rt_inspect_container := fun _ _ => Err NotFound;
     rt_kill := rt_kill sample_runtime;
     rt_remove_container := rt_remove_container sample_runtime;
     rt_wait := rt_wait sample_runtime;
     rt_logs := rt_logs sample_runtime |}.

(** The same daemon, refusing to create containers. *)
Definition failing_create_runtime : Runtime :=
  {| rt_inspect_image := rt_inspect_image sample_runtime;
     rt_create_container := fun _ _ => Err APIError;
     rt_start := rt_start sample_runtime;
     rt_inspect_container := rt_inspect_container sample_runtime;
     rt_kill := rt_kill sample_runtime;
     rt_remove_container := rt_remove_container sample_runtime;
     rt_wait := rt_wait sample_runtime;
     rt_logs := rt_logs sample_runtime |}.

(** The same daemon, answering every image inspection with empty metadata. *)
Definition empty_metadata_runtime : Runtime :=
  {| rt_inspect_image := fun _ _ => Ok None;
     rt_create_container := rt_create_container sample_runtime;
     rt_start := rt_start sample_runtime;
     rt_inspect_container := rt_inspect_container sample_runtime;
     rt_kill := rt_kill sample_runtime;
     rt_remove_container := rt_remove_container sample_runtime;
     rt_wait := rt_wait sample_runtime;
     rt_logs := rt_logs sample_runtime |}.

Definition is_remove (r : request) : bool :=
  match r with ReqRemoveContainer _ _ => true | _ => false end.

(** [DockerJob.__enter__]: prepares the job and returns it. *)
Definition enter (rt : Runtime) : JM DockerJob :=
  prepare rt ;;; get_job.

(** [DockerJob.__exit__]: cleans up and returns [None], so an exception of
    the block is re-raised. *)
Definition exit (rt : Runtime) : JM unit := cleanup rt.

(** [with job: body]: [__exit__] is not called when [__enter__] raises;
    otherwise it runs after the body whether the body returns or raises,
    and an exception of [__exit__] replaces the body's. *)
Definition with_job {A} (rt : Runtime) (body : JM A) : JM A :=
  fun s => match enter rt s with
           | (s1, Err e) => (s1, Err e)
           | (s1, Ok _) =>
               match body s1 with
               | (s2, Ok a) => (exit rt ;;; ret a) s2
               | (s2, Err e) => (exit rt ;;; raise e) s2
               end
           end.

(** A daemon whose image metadata does not depend on earlier requests. *)
Definition stable_images (rt : Runtime) : Prop :=
  forall h h' k, rt_inspect_image rt h k = rt_inspect_image rt h' k.

(** The sample daemon, answering create requests with an empty id. *)
Definition empty_id_runtime : Runtime :=
  {| rt_inspect_image := rt_inspect_image sample_runtime;
     rt_create_container := fun _ _ => Ok [("Id", JStr EmptyString); ("Warnings", JNull)];
     rt_start := rt_start sample_runtime;
     rt_inspect_container := rt_inspect_container sample_runtime;
     rt_kill := rt_kill sample_runtime;
     rt_remove_container := rt_remove_container sample_runtime;
     rt_wait := rt_wait sample_runtime;
     rt_logs := rt_logs sample_runtime |}.

(** The sample daemon, refusing to remove containers. *)
Definition failing_remove_runtime : Runtime :=
  {| rt_inspect_image := rt_inspect_image sample_runtime;
     rt_create_container := rt_create_container sample_runtime;
     rt_start := rt_start sample_runtime;
     rt_inspect_container := rt_inspect_container sample_runtime;
     rt_kill := rt_kill sample_runtime;
     rt_remove_container := fun _ _ _ => Err APIError;
     rt_wait := rt_wait sample_runtime;
     rt_logs := rt_logs sample_runtime |}.

(** Request kinds, and the driver operations that issue them. *)
Definition is_create (r : request) : bool :=
  match r with ReqCreateContainer _ => true | _ => false end.
Definition is_kill (r : request) : bool :=
  match r with ReqKill _ => true | _ => false end.
Definition is_remove_req (r : request) : bool :=
  match r with ReqRemoveContainer _ _ => true | _ => false end.

Definition count_reqs (p : request -> bool) (l : list request) : nat :=
  length (filter p l).

Definition is_prepare_op (o : op) : bool :=
  match o with OpPrepare => true | _ => false end.
Definition is_cleanup_op (o : op) : bool :=
  match o with OpCleanup => true | _ => false end.

(* ================================================================== *)
(** * Properties *)

Ltac unfold_monad :=
  unfold bind, ret, raise, get_job, modify_job, write_file, call, assert,
         catch in *.

Ltac split_matches :=
  repeat (cbn; match goal with
         | |- context [match ?x with _ => _ end] =>
             lazymatch type of x with
             | prod _ _ => fail
             | _ => let E := fresh "E" in destruct x eqn:E
             end
         end).

Definition handle_inv (j : DockerJob) : Prop :=
  has_container j = false -> state j = STATE_NEW \/ state j = STATE_REMOVED.

Lemma get_status_same : forall rt s, st_job (fst (get_status rt s)) = st_job s.
Proof.
  intros rt [j fs tr]; unfold get_status; unfold_monad; cbn.
  destruct (has_container j); reflexivity.
Qed.

Lemma prepare_inv : forall rt s,
  (forall h a, rt_create_container rt h a <> Ok []) ->
  handle_inv (st_job s) -> handle_inv (st_job (fst (prepare rt s))).
Proof.
  intros rt [j fs tr] Hne Hi; unfold prepare; unfold_monad; cbn.
  destruct (parameters j) as [|kv ps]; cbn;
  destruct (rt_create_container rt _ _) as [c|e] eqn:Ec; cbn; auto;
  (destruct c as [|x c]; [exfalso; eapply Hne; exact Ec|]);
  cbn; split_matches; cbn; unfold handle_inv, has_container; cbn;
  discriminate.
Qed.

Lemma cleanup_inv : forall rt s,
  handle_inv (st_job s) -> handle_inv (st_job (fst (cleanup rt s))).
Proof.
  intros rt [j fs tr] Hi; unfold cleanup, get_status; unfold_monad; cbn.
  destruct (has_container j) eqn:Hc; cbn; [|exact Hi].
  rewrite Hc; cbn.
  split_matches; cbn; unfold handle_inv; cbn; try rewrite Hc; auto;
    intros H; unfold has_container, set_state in *; cbn in *; congruence.
Qed.

Lemma start_inv : forall rt s,
  handle_inv (st_job s) -> handle_inv (st_job (fst (start rt s))).
Proof.
  intros rt [j fs tr] Hi; unfold start, get_status; unfold_monad; cbn.
  destruct (has_container j) eqn:Hc; cbn.
  - split_matches; cbn; unfold handle_inv; cbn; try rewrite Hc; auto;
      intros H; unfold has_container, set_state in *; cbn in *; congruence.
  - destruct (String.eqb (state j) STATE_CREATED) eqn:Es; [|exact Hi].
    cbn in Hi; destruct (Hi Hc) as [H|H]; rewrite H in Es; discriminate Es.
Qed.

Lemma wait_same : forall rt t s, st_job (fst (wait rt t s)) = st_job s.
Proof.
  intros rt t [j fs tr]; unfold wait, get_status; unfold_monad; cbn.
  destruct (has_container j); cbn; split_matches; reflexivity.
Qed.

Lemma get_logs_same : forall rt s, st_job (fst (get_logs rt s)) = st_job s.
Proof.
  intros rt [j fs tr]; unfold get_logs; unfold_monad; cbn.
  destruct (has_container j); cbn; split_matches; reflexivity.
Qed.

Lemma bind_ret_tt_job : forall {A} (m : JM A) s,
  st_job (fst ((m ;;; ret tt) s)) = st_job (fst (m s)).
Proof.
  intros A m s; unfold bind, ret; destruct (m s) as [s' [a|e]]; reflexivity.
Qed.

Lemma run_op_inv : forall rt o s,
  (forall h a, rt_create_container rt h a <> Ok []) ->
  handle_inv (st_job s) -> handle_inv (st_job (fst (run_op rt o s))).
Proof.
  intros rt o s Hne Hi; destruct o; cbn [run_op];
    try rewrite bind_ret_tt_job.
  - now apply prepare_inv.
  - now apply start_inv.
  - now rewrite wait_same.
  - now apply cleanup_inv.
  - now rewrite get_status_same.
  - now rewrite get_logs_same.
Qed.

(** C1 (amended): whatever sequence of driver operations follows
    construction (exceptions caught by the caller), a job that holds no
    container handle has cached state [new] or [removed], provided the
    daemon's answer to a create request is never an empty dict. *)
Theorem no_handle_state_new_or_removed :
  forall rt img src ps wd rd od ops,
  (forall h a, rt_create_container rt h a <> Ok []) ->
  let j := st_job (run_ops rt ops (init_st (new_job img src ps wd rd od))) in
  has_container j = false -> state j = STATE_NEW \/ state j = STATE_REMOVED.
Proof.
  intros rt img src ps wd rd od ops Hne.
  cbv zeta.
  assert (H0 : handle_inv (st_job (init_st (new_job img src ps wd rd od))))
    by (intros _; left; reflexivity).
  revert H0; generalize (init_st (new_job img src ps wd rd od)).
  induction ops as [|o os IH]; intros s Hs; cbn [run_ops]; [exact Hs|].
  apply IH, run_op_inv; assumption.
Qed.

Lemma no_handle_state_new_or_removed_witness :
  (forall h a, rt_create_container sample_runtime h a <> Ok []) /\
  (has_container (st_job (run_ops sample_runtime [OpPrepare; OpStart; OpCleanup]
                            (init_st sample_job))) = false ->
   let j := st_job (run_ops sample_runtime [OpPrepare; OpStart; OpCleanup]
                            (init_st sample_job)) in
   state j = STATE_NEW \/ state j = STATE_REMOVED).
Proof.
  split.
  - intros h a; cbn; discriminate.
  - apply (no_handle_state_new_or_removed sample_runtime sample_image "print(x)"
             (Some [("x", PInt 3); ("y", PStr "a")]) "job1" "R" "O"
             [OpPrepare; OpStart; OpCleanup]).
    intros h a; cbn; discriminate.
Defined.

(** C1 (counterexample): right after a successful [prepare] the job holds a
    container handle while its cached state is still [new]. *)
Lemma handle_with_state_new_after_prepare :
  let j := st_job (run_ops sample_runtime [OpPrepare] (init_st sample_job)) in
  has_container j = true /\ state j = STATE_NEW.
Proof. vm_compute. split; reflexivity. Qed.

(* ------------------------------------------------------------------ *)
(** ** [cleanup] *)

Lemma cleanup_no_handle : forall rt s,
  has_container (st_job s) = false -> cleanup rt s = (s, Ok tt).
Proof.
  intros rt [j fs tr] Hc; cbn in Hc; unfold cleanup; unfold_monad; cbn.
  now rewrite Hc.
Qed.

Lemma get_status_no_handle : forall rt s,
  has_container (st_job s) = false -> get_status rt s = (s, Ok (state (st_job s))).
Proof.
  intros rt [j fs tr] Hc; cbn in Hc; unfold get_status; unfold_monad; cbn.
  now rewrite Hc.
Qed.

Lemma cleanup_ok_no_handle : forall rt s s',
  cleanup rt s = (s', Ok tt) -> has_container (st_job s') = false.
Proof.
  intros rt [j fs tr] s' H; unfold cleanup, get_status in H; unfold_monad.
  cbn in H; destruct (has_container j) eqn:Hc.
  - revert H; split_matches; intros H; inversion H; reflexivity.
  - inversion H; subst; exact Hc.
Qed.

(** C2: calling [cleanup] twice has exactly the effect of calling it once
    (same requests, files, job fields and outcome), and on a job without a
    container handle it does nothing. *)
Theorem cleanup_idempotent : forall rt s,
  (cleanup rt ;;; cleanup rt) s = cleanup rt s /\
  (has_container (st_job s) = false -> cleanup rt s = (s, Ok tt)).
Proof.
  intros rt s; split; [|apply cleanup_no_handle].
  unfold bind at 1.
  destruct (cleanup rt s) as [s' [[]|e]] eqn:E; [|reflexivity].
  apply cleanup_no_handle, (cleanup_ok_no_handle rt s), E.
Qed.

(** C3: once [cleanup] has returned normally on a job holding a container
    handle, the handle and the container id are cleared, the cached state is
    [removed], and [get_status] answers [removed] without asking the daemon. *)
Theorem cleanup_leaves_removed : forall rt s s',
  has_container (st_job s) = true ->
  cleanup rt s = (s', Ok tt) ->
  container (st_job s') = None /\ container_id (st_job s') = JNull /\
  state (st_job s') = STATE_REMOVED /\ get_status rt s' = (s', Ok STATE_REMOVED).
Proof.
  intros rt s s' Hc H.
  assert (Hn := cleanup_ok_no_handle rt s s' H).
  assert (Hf : container (st_job s') = None /\ container_id (st_job s') = JNull /\
               state (st_job s') = STATE_REMOVED).
  { destruct s as [j fs tr]; cbn in Hc.
    unfold cleanup, get_status in H; unfold_monad; cbn in H; rewrite Hc in H.
    revert H; split_matches; intros H; inversion H; subst; cbn;
      repeat split; reflexivity. }
  destruct Hf as (H1 & H2 & H3); repeat split; try assumption.
  rewrite get_status_no_handle by exact Hn; now rewrite H3.
Qed.

Lemma cleanup_leaves_removed_witness :
  let s := run_ops sample_runtime [OpPrepare; OpStart] (init_st sample_job) in
  has_container (st_job s) = true /\
  cleanup sample_runtime s = (fst (cleanup sample_runtime s), Ok tt) /\
  container (st_job (fst (cleanup sample_runtime s))) = None /\
  container_id (st_job (fst (cleanup sample_runtime s))) = JNull /\
  state (st_job (fst (cleanup sample_runtime s))) = STATE_REMOVED /\
  get_status sample_runtime (fst (cleanup sample_runtime s)) =
    (fst (cleanup sample_runtime s), Ok STATE_REMOVED).
Proof.
  cbv zeta.
  assert (Hc : has_container (st_job (run_ops sample_runtime [OpPrepare; OpStart]
                                         (init_st sample_job))) = true)
    by (vm_compute; reflexivity).
  assert (Hok : cleanup sample_runtime (run_ops sample_runtime [OpPrepare; OpStart]
                                         (init_st sample_job)) =
                (fst (cleanup sample_runtime (run_ops sample_runtime [OpPrepare; OpStart]
                                         (init_st sample_job))), Ok tt))
    by (vm_compute; reflexivity).
  split; [exact Hc|]. split; [exact Hok|].
  exact (cleanup_leaves_removed sample_runtime _ _ Hc Hok).
Defined.

(** C4 (amended): on a job holding a container handle, [cleanup] first
    queries the status.  If the daemon reports [running] and the kill
    returns normally, the requests are status query, kill, forced removal,
    and the cached state is [killed] when the removal is sent; for any other
    status the forced removal follows the status query directly.  The
    removal is thus sent whatever the status, but only once the status
    query (and the kill, if sent) have returned normally: if the status
    query raises, or the kill raises, that error propagates and the
    requests sent stop there, with no removal. *)
Theorem cleanup_kill_then_remove : forall rt s,
  has_container (st_job s) = true ->
  let cid := container_id (st_job s) in
  let st0 := state (st_job s) in
  let h1 := (requests s ++ [ReqInspectContainer cid])%list in
  (forall stat,
   rt_inspect_container rt (requests s) cid = Ok stat ->
   (stat = STATE_RUNNING ->
    rt_kill rt h1 cid = Ok tt ->
    st_trace (fst (cleanup rt s)) =
      (st_trace s ++ [(ReqInspectContainer cid, st0); (ReqKill cid, st0);
                      (ReqRemoveContainer cid true, STATE_KILLED)])%list) /\
   (stat <> STATE_RUNNING ->
    st_trace (fst (cleanup rt s)) =
      (st_trace s ++ [(ReqInspectContainer cid, st0);
                      (ReqRemoveContainer cid true, st0)])%list)) /\
  (forall e,
   rt_inspect_container rt (requests s) cid = Err e ->
   snd (cleanup rt s) = Err e /\ requests (fst (cleanup rt s)) = h1) /\
  (forall e,
   rt_inspect_container rt (requests s) cid = Ok STATE_RUNNING ->
   rt_kill rt h1 cid = Err e ->
   snd (cleanup rt s) = Err e /\
   requests (fst (cleanup rt s)) = (h1 ++ [ReqKill cid])%list).
Proof.
  intros rt [j fs tr] Hc; cbn in Hc |- *.
  unfold cleanup, get_status; unfold_monad; unfold requests.
  repeat progress (simpl; rewrite ?Hc).
  split; [|split].
  - intros stat Hs; split.
    + intros Hr Hk; subst stat.
      idtac.
      repeat progress (simpl; rewrite ?Hs, ?map_app).
      simpl; rewrite Hk; simpl.
      destruct (rt_remove_container _ _ _ _); simpl;
        now rewrite <- !app_assoc.
    + intros Hr; apply String.eqb_neq in Hr.
      repeat progress (simpl; rewrite ?Hs, ?Hr).
      destruct (rt_remove_container _ _ _ _); simpl;
        now rewrite <- !app_assoc.
  - intros e Hs; repeat progress (simpl; rewrite ?Hs).
    split; [reflexivity|]; rewrite map_app; reflexivity.
  - intros e Hs Hk.
    idtac.
    repeat progress (simpl; rewrite ?Hs, ?map_app).
    simpl; rewrite Hk; simpl.
    split; [reflexivity|].
    rewrite ?map_app; simpl; rewrite <- ?app_assoc; reflexivity.
Qed.

Lemma cleanup_kill_then_remove_witness :
  let s := run_ops sample_runtime [OpPrepare; OpStart] (init_st sample_job) in
  has_container (st_job s) = true /\
  st_trace (fst (cleanup sample_runtime s)) =
    (st_trace s ++ [(ReqInspectContainer (container_id (st_job s)), state (st_job s));
                    (ReqKill (container_id (st_job s)), state (st_job s));
                    (ReqRemoveContainer (container_id (st_job s)) true, STATE_KILLED)])%list.
Proof.
  cbv zeta.
  assert (Hc : has_container (st_job (run_ops sample_runtime [OpPrepare; OpStart]
                                         (init_st sample_job))) = true)
    by (vm_compute; reflexivity).
  split; [exact Hc|].
  apply (proj1 (cleanup_kill_then_remove sample_runtime _ Hc) STATE_RUNNING);
    vm_compute; reflexivity.
Defined.

(** C4 (counterexample): when the status query of [cleanup] fails (the
    container vanished), no removal request is sent although the job holds
    a container handle; the error propagates. *)
Lemma cleanup_no_remove_when_status_fails :
  let s := run_ops vanished_container_runtime [OpPrepare] (init_st sample_job) in
  has_container (st_job s) = true /\
  existsb is_remove (requests (fst (cleanup vanished_container_runtime s))) = false /\
  snd (cleanup vanished_container_runtime s) = Err NotFound.
Proof. vm_compute. repeat split. Qed.

(* ------------------------------------------------------------------ *)
(** ** [DockerImage] *)

Lemma new_image_unfold : forall rt repository id tag h,
  new_image rt repository id tag h =
  let img := image_fields repository id tag in
  match rt_inspect_image rt h (query_key img) with
  | Ok (Some i) => if image_matches img i
                   then ((h ++ [ReqInspectImage (query_key img)])%list, Ok img)
                   else ((h ++ [ReqInspectImage (query_key img)])%list, Err ValueError)
  | Ok None => ((h ++ [ReqInspectImage (query_key img)])%list, Err AssertionError)
  | Err e => ((h ++ [ReqInspectImage (query_key img)])%list, Err e)
  end.
Proof.
  intros; unfold new_image, check, inspect_image, bind, ret, raise; cbv zeta.
  destruct (rt_inspect_image _ _ _) as [[i|]|e]; try reflexivity.
  destruct (image_matches _ _); reflexivity.
Qed.

(** C5 (amended): constructing an image reference propagates a runtime
    error of the metadata query, fails with an assertion error when the
    metadata is empty, and fails with [ValueError] when the full name is not
    among the metadata's tags or a supplied id differs from the metadata's
    id; a reference is returned only when non-empty metadata matches. *)
Theorem new_image_rejects : forall rt repository id tag h,
  let img := image_fields repository id tag in
  let r := snd (new_image rt repository id tag h) in
  (forall e, rt_inspect_image rt h (query_key img) = Err e -> r = Err e) /\
  (rt_inspect_image rt h (query_key img) = Ok None -> r = Err AssertionError) /\
  (forall i, rt_inspect_image rt h (query_key img) = Ok (Some i) ->
             image_matches img i = false -> r = Err ValueError) /\
  (forall x, r = Ok x -> x = img /\
     exists i, rt_inspect_image rt h (query_key img) = Ok (Some i) /\
               image_matches img i = true).
Proof.
  intros rt repository id tag h; cbv zeta; rewrite new_image_unfold; cbv zeta.
  split; [|split; [|split]].
  - intros e He; now rewrite He.
  - intros He; now rewrite He.
  - intros i He Hm; now rewrite He, Hm.
  - intros x; destruct (rt_inspect_image _ _ _) as [[i|]|e]; try discriminate.
    destruct (image_matches _ i) eqn:Hm; [|discriminate].
    cbn; intros Hx; inversion Hx; subst; split; [reflexivity|].
    exists i; split; [reflexivity|exact Hm].
Qed.

(** C5 (counterexample): with empty metadata the construction fails with an
    assertion error, not with [ValueError]. *)
Lemma new_image_empty_metadata_assertion :
  snd (new_image empty_metadata_runtime "golem/base" None None []) = Err AssertionError.
Proof. vm_compute. reflexivity. Qed.

(** C7: when the queried metadata lists [repository:tag] among its tags
    (and a supplied id equals its id), construction succeeds and the full
    name is [repository ++ ":" ++ tag], the tag defaulting to [latest]
    ([tag] is a Docker tag, hence not empty). *)
Theorem new_image_succeeds : forall rt repository id tag h i,
  tag <> Some EmptyString ->
  let name := repository ++ ":" ++ match tag with Some t => t | None => "latest" end in
  rt_inspect_image rt h (query_key (image_fields repository id tag)) = Ok (Some i) ->
  In name (RepoTags i) ->
  (forall x, id = Some x -> Id i = x) ->
  snd (new_image rt repository id tag h) = Ok (image_fields repository id tag) /\
  img_name (image_fields repository id tag) = name.
Proof.
  intros rt repository id tag h i Ht; cbv zeta; intros Hq Hin Hid.
  assert (Hn : img_name (image_fields repository id tag) =
               repository ++ ":" ++ match tag with Some t => t | None => "latest" end).
  { unfold image_fields; cbn.
    destruct tag as [t|]; [|reflexivity].
    unfold opt_truthy; destruct (String.eqb t EmptyString) eqn:Et; [|reflexivity].
    apply String.eqb_eq in Et; subst; exfalso; now apply Ht. }
  split; [|exact Hn].
  rewrite new_image_unfold; cbv zeta; rewrite Hq.
  assert (Hm : image_matches (image_fields repository id tag) i = true).
  { unfold image_matches; apply andb_true_intro; split.
    - apply existsb_exists; exists (img_name (image_fields repository id tag)).
      rewrite Hn; split; [exact Hin|apply String.eqb_refl].
    - cbn; destruct id as [x|]; [|reflexivity].
      rewrite (Hid x eq_refl); apply String.eqb_refl. }
  now rewrite Hm.
Qed.

Lemma new_image_succeeds_witness :
  Some "latest" <> Some EmptyString /\
  rt_inspect_image sample_runtime []
    (query_key (image_fields "golem/base" None (Some "latest"))) =
    Ok (Some {| RepoTags := ["golem/base:latest"]; Id := "sha256:ab" |}) /\
  snd (new_image sample_runtime "golem/base" None (Some "latest") []) =
    Ok (image_fields "golem/base" None (Some "latest")) /\
  img_name (image_fields "golem/base" None (Some "latest")) = "golem/base:latest".
Proof.
  split; [discriminate|]. split; [reflexivity|].
  apply (new_image_succeeds sample_runtime "golem/base" None (Some "latest") []
           {| RepoTags := ["golem/base:latest"]; Id := "sha256:ab" |}).
  - discriminate.
  - reflexivity.
  - left; reflexivity.
  - intros x Hx; discriminate.
Defined.

Lemma is_available_unfold : forall rt repository id tag h,
  is_available rt repository id tag h =
  match is_available_body rt repository id tag h with
  | (h', Ok b) => (h', Ok b)
  | (h', Err NotFound) => (h', Ok false)
  | (h', Err APIError) => match tag with
                          | Some _ => (h', Ok false)
                          | None => (h', Err APIError)
                          end
  | (h', Err ValueError) => (h', Ok false)
  | (h', Err e) => (h', Err e)
  end.
Proof.
  intros; unfold is_available, catch.
  destruct (is_available_body _ _ _ _ _) as [h' [b|[]]]; try reflexivity.
  destruct tag; reflexivity.
Qed.

(** C6 (amended): [is_available] turns [NotFound] and [ValueError] raised
    while constructing and checking the reference into [false]; an
    [APIError] becomes [false] exactly when a tag argument was given and
    propagates otherwise; any other error (the assertion on empty metadata)
    propagates.  Hence it never raises [NotFound] or [ValueError], never
    raises [APIError] when a tag was given, and answers [false] when the
    metadata query reports the image as not found. *)
Theorem is_available_outcomes : forall rt repository id tag h,
  let b := snd (is_available_body rt repository id tag h) in
  let r := snd (is_available rt repository id tag h) in
  (forall v, b = Ok v -> r = Ok v) /\
  (b = Err NotFound -> r = Ok false) /\
  (b = Err ValueError -> r = Ok false) /\
  (b = Err APIError ->
     r = match tag with Some _ => Ok false | None => Err APIError end) /\
  (forall e, b = Err e -> e <> NotFound -> e <> APIError -> e <> ValueError ->
     r = Err e) /\
  r <> Err NotFound /\ r <> Err ValueError /\
  (tag <> None -> r <> Err APIError) /\
  (rt_inspect_image rt h (query_key (image_fields repository id tag)) = Err NotFound ->
     r = Ok false).
Proof.
  intros rt repository id tag h; cbv zeta; rewrite is_available_unfold.
  destruct (is_available_body rt repository id tag h) as [h' b] eqn:Eb; cbn.
  split; [|split; [|split; [|split; [|split; [|split; [|split; [|split]]]]]]].
  - intros v ->; reflexivity.
  - intros ->; reflexivity.
  - intros ->; reflexivity.
  - intros ->; destruct tag; reflexivity.
  - intros [] -> H1 H2 H3; try reflexivity; congruence.
  - destruct b as [v|[]]; try destruct tag; discriminate.
  - destruct b as [v|[]]; try destruct tag; discriminate.
  - intros Ht; destruct b as [v|[]]; destruct tag; try discriminate.
    congruence.
  - intros Hq.
    unfold is_available_body, bind in Eb.
    rewrite new_image_unfold in Eb; cbv zeta in Eb; rewrite Hq in Eb.
    inversion Eb; reflexivity.
Qed.

(** C6 (counterexample): a tag probe against a daemon that answers with
    empty metadata raises the assertion error instead of answering. *)
Lemma is_available_empty_metadata_raises :
  snd (is_available empty_metadata_runtime "golem/base" None (Some "missing") [])
    = Err AssertionError.
Proof. vm_compute. reflexivity. Qed.

(* ------------------------------------------------------------------ *)
(** ** [prepare]: the files of the task directory *)

Lemma str_app_assoc : forall a b c : string, (a ++ b) ++ c = a ++ (b ++ c).
Proof. induction a as [|x a IH]; intros; cbn; [reflexivity|now rewrite IH]. Qed.

Lemma str_app_nil_r : forall a : string, a ++ EmptyString = a.
Proof. induction a as [|x a IH]; cbn; [reflexivity|now rewrite IH]. Qed.

Lemma str_app_inj_l : forall a b c : string, a ++ b = a ++ c -> b = c.
Proof.
  induction a as [|x a IH]; intros b c H; cbn in H; [exact H|].
  inversion H; auto.
Qed.

Lemma params_content_lines : forall ps,
  params_content ps = fold_right String.append EmptyString (map params_line ps).
Proof.
  intros ps; unfold params_content.
  enough (Hg : forall acc, fold_left (fun acc kv => acc ++ params_line kv) ps acc =
                           acc ++ fold_right String.append EmptyString (map params_line ps))
    by (rewrite Hg; reflexivity).
  induction ps as [|kv ps IH]; intros acc; cbn.
  - now rewrite str_app_nil_r.
  - now rewrite IH, str_app_assoc.
Qed.

Lemma dict_get_set_same : forall {V} k (v : V) d, dict_get k (dict_set k v d) = Some v.
Proof.
  intros V k v d; induction d as [|[k' v'] d IH]; cbn.
  - now rewrite String.eqb_refl.
  - destruct (String.eqb k k') eqn:E; cbn; [now rewrite String.eqb_refl|].
    rewrite E; exact IH.
Qed.

Lemma dict_get_set_other : forall {V} k k' (v : V) d,
  k <> k' -> dict_get k (dict_set k' v d) = dict_get k d.
Proof.
  intros V k k' v d Hne; induction d as [|[k'' v''] d IH]; cbn.
  - apply String.eqb_neq in Hne; now rewrite Hne.
  - destruct (String.eqb k' k'') eqn:E; cbn.
    + apply String.eqb_eq in E; subst k''.
      apply String.eqb_neq in Hne; now rewrite Hne.
    + destruct (String.eqb k k''); [reflexivity|exact IH].
Qed.

Lemma params_path_neq_script_path : forall j, get_params_path j <> get_script_path j.
Proof.
  intros j; unfold get_params_path, get_script_path, path_join, PARAMS_FILE, TASK_SCRIPT.
  destruct (String.eqb (task_dir j) EmptyString || ends_with_slash (task_dir j)).
  - intros H; apply str_app_inj_l in H; discriminate.
  - intros H; apply str_app_inj_l in H; discriminate.
Qed.

(** What [prepare] leaves in the files and the script field, whatever
    happens after the script file is written. *)
Lemma prepare_files : forall rt s,
  let j := st_job s in
  let s' := fst (prepare rt s) in
  let src := match parameters j with [] => script_src j
                                | _ => IMPORT_PARAMS ++ script_src j end in
  let fs := match parameters j with
            | [] => st_fs s
            | ps => dict_set (get_params_path j) (params_content ps) (st_fs s)
            end in
  st_fs s' = dict_set (get_script_path j) src fs /\ script_src (st_job s') = src.
Proof.
  intros rt [j fs tr]; cbv zeta; cbn [st_job st_fs].
  unfold prepare; unfold_monad; simpl.
  destruct (parameters j) as [|kv ps]; simpl;
  destruct (rt_create_container _ _ _) as [c|e]; simpl; try (split; reflexivity);
  destruct (dict_get "Id" c) as [cid|]; simpl; try (split; reflexivity);
  destruct (json_truthy cid); simpl; split; reflexivity.
Qed.

(** C8: with a non-empty parameter dict, [prepare] writes [params.py] in
    the task directory holding one [key = repr(value)] line per pair, in
    iteration order, prepends the import of [params] to the script source
    and writes that script as [job.py] in the task directory; with no
    parameters it writes the script unchanged and leaves [params.py] as it
    was. *)
Theorem prepare_writes_task_files : forall rt s,
  let j := st_job s in
  let s' := fst (prepare rt s) in
  match parameters j with
  | [] =>
      dict_get (get_script_path j) (st_fs s') = Some (script_src j) /\
      dict_get (get_params_path j) (st_fs s') = dict_get (get_params_path j) (st_fs s)
  | ps =>
      dict_get (get_params_path j) (st_fs s') =
        Some (fold_right String.append EmptyString (map params_line ps)) /\
      dict_get (get_script_path j) (st_fs s') = Some (IMPORT_PARAMS ++ script_src j) /\
      script_src (st_job s') = IMPORT_PARAMS ++ script_src j
  end.
Proof.
  intros rt s; cbv zeta.
  destruct (prepare_files rt s) as [Hfs Hsrc]; cbv zeta in Hfs, Hsrc.
  assert (Hne := params_path_neq_script_path (st_job s)).
  destruct (parameters (st_job s)) as [|kv ps] eqn:Ep; rewrite Hfs.
  - split; [apply dict_get_set_same|].
    now apply dict_get_set_other.
  - split; [|split; [apply dict_get_set_same|exact Hsrc]].
    rewrite dict_get_set_other by exact Hne.
    rewrite dict_get_set_same, params_content_lines; reflexivity.
Qed.

Example prepare_sample_files :
  dict_get "R/job1/params.py" (st_fs (fst (prepare sample_runtime (init_st sample_job))))
    = Some ("x = 3" ++ NL ++ "y = 'a'" ++ NL).
Proof. vm_compute. reflexivity. Qed.

(* ------------------------------------------------------------------ *)
(** ** [wait] *)

(** C9 (amended): when the status [get_status] reports is neither
    [running] nor [exited], [wait] returns [-1] and sends no wait request:
    its only request is the status query [get_status] sends when the job
    holds a container handle (none without a handle). *)
Theorem wait_not_applicable : forall rt t s stat,
  snd (get_status rt s) = Ok stat ->
  stat <> STATE_RUNNING -> stat <> STATE_EXITED ->
  wait rt t s = (fst (get_status rt s), Ok (-1)%Z) /\
  requests (fst (wait rt t s)) =
    (requests s ++ if has_container (st_job s)
                   then [ReqInspectContainer (container_id (st_job s))] else [])%list.
Proof.
  intros rt t s stat Hs Hr He.
  assert (Hw : wait rt t s = (fst (get_status rt s), Ok (-1)%Z)).
  { unfold wait, bind at 1.
    destruct (get_status rt s) as [s1 r1] eqn:Eg; cbn in Hs |- *; subst r1.
    apply String.eqb_neq in Hr, He; cbn; rewrite Hr, He; reflexivity. }
  split; [exact Hw|]; rewrite Hw.
  destruct s as [j fs tr]; unfold get_status, requests; unfold_monad; cbn.
  destruct (has_container j); cbn.
  - now rewrite map_app.
  - now rewrite app_nil_r.
Qed.

Lemma wait_not_applicable_witness :
  let s := run_ops sample_runtime [OpPrepare] (init_st sample_job) in
  snd (get_status sample_runtime s) = Ok STATE_CREATED /\
  wait sample_runtime None s = (fst (get_status sample_runtime s), Ok (-1)%Z).
Proof.
  cbv zeta.
  assert (Hs : snd (get_status sample_runtime
                      (run_ops sample_runtime [OpPrepare] (init_st sample_job)))
               = Ok STATE_CREATED) by (vm_compute; reflexivity).
  split; [exact Hs|].
  apply (proj1 (wait_not_applicable sample_runtime None _ STATE_CREATED Hs
                  ltac:(discriminate) ltac:(discriminate))).
Defined.

(** C9 (counterexample): on a prepared job whose container is [created],
    [wait] asks the daemon for the container status before answering [-1]. *)
Lemma wait_queries_runtime_when_created :
  let s := run_ops sample_runtime [OpPrepare] (init_st sample_job) in
  snd (wait sample_runtime None s) = Ok (-1)%Z /\
  requests (fst (wait sample_runtime None s)) =
    (requests s ++ [ReqInspectContainer (JStr "c1")])%list.
Proof. vm_compute. split; reflexivity. Qed.

(* ------------------------------------------------------------------ *)
(** ** [prepare] when the container cannot be created *)

Lemma container_args_script_src : forall x j,
  container_args (set_script_src x j) = container_args j.
Proof. reflexivity. Qed.

(** C10: if the create request of [prepare] fails on a job without a
    container handle or id, the error propagates, the handle and id are
    still absent, and a following [cleanup] changes nothing and sends no
    request. *)
Theorem prepare_create_failure_no_handle : forall rt s e,
  container (st_job s) = None -> container_id (st_job s) = JNull ->
  rt_create_container rt (requests s) (container_args (st_job s)) = Err e ->
  let s' := fst (prepare rt s) in
  snd (prepare rt s) = Err e /\
  container (st_job s') = None /\ container_id (st_job s') = JNull /\
  cleanup rt s' = (s', Ok tt).
Proof.
  intros rt [j fs tr] e Hc Hid Hcr; cbn in Hc, Hid, Hcr.
  unfold requests in Hcr; cbn in Hcr.
  assert (Hp : snd (prepare rt {| st_job := j; st_fs := fs; st_trace := tr |}) = Err e /\
               container (st_job (fst (prepare rt {| st_job := j; st_fs := fs; st_trace := tr |})))
                 = None /\
               container_id (st_job (fst (prepare rt {| st_job := j; st_fs := fs; st_trace := tr |})))
                 = JNull).
  { unfold prepare; unfold_monad; simpl.
    destruct (parameters j); simpl; unfold requests; simpl;
      rewrite ?container_args_script_src, Hcr;
      simpl; auto. }
  destruct Hp as (H1 & H2 & H3); cbv zeta.
  split; [exact H1|]. split; [exact H2|]. split; [exact H3|].
  apply cleanup_no_handle; unfold has_container; now rewrite H2.
Qed.

Lemma prepare_create_failure_no_handle_witness :
  container (st_job (init_st sample_job)) = None /\
  container_id (st_job (init_st sample_job)) = JNull /\
  rt_create_container failing_create_runtime (requests (init_st sample_job))
    (container_args (st_job (init_st sample_job))) = Err APIError /\
  cleanup failing_create_runtime (fst (prepare failing_create_runtime (init_st sample_job)))
    = (fst (prepare failing_create_runtime (init_st sample_job)), Ok tt).
Proof.
  split; [reflexivity|]. split; [reflexivity|]. split; [reflexivity|].
  exact (proj2 (proj2 (proj2 (prepare_create_failure_no_handle failing_create_runtime
           (init_st sample_job) APIError eq_refl eq_refl eq_refl)))).
Defined.

(* ================================================================== *)
(** * Further properties of the code *)

(* ------------------------------------------------------------------ *)
(** ** The [with] statement ([__enter__] / [__exit__]) *)

(** If the daemon answers the create request with a non-empty dict whose
    ["Id"] is missing or falsy, [prepare] raises ([KeyError] or the
    assertion) after recording the container handle; a [with] block then
    neither runs its body nor calls [__exit__], so the job leaves it holding
    the handle and no removal request has been sent. *)
Theorem with_job_bad_id_keeps_container : forall {A} rt (body : JM A) s c,
  rt_create_container rt (requests s) (container_args (st_job s)) = Ok c ->
  c <> [] ->
  json_truthy (match dict_get "Id" c with Some v => v | None => JNull end) = false ->
  let e := match dict_get "Id" c with Some _ => AssertionError | None => KeyError end in
  let s' := fst (prepare rt s) in
  snd (prepare rt s) = Err e /\
  with_job rt body s = (s', Err e) /\
  container (st_job s') = Some c /\ has_container (st_job s') = true /\
  requests s' = (requests s ++ [ReqCreateContainer (container_args (st_job s))])%list.
Proof.
  intros A rt body [j fs tr] c Hcr Hne Hid; cbv zeta.
  unfold requests in Hcr; cbn in Hcr.
  assert (Hp : prepare rt {| st_job := j; st_fs := fs; st_trace := tr |} =
    ({| st_job := set_container_id
                    (match dict_get "Id" c with Some v => v | None => container_id j end)
                    (set_container (Some c)
                      (match parameters j with
                       | [] => j | _ => set_script_src (IMPORT_PARAMS ++ script_src j) j end));
        st_fs := dict_set (get_script_path j)
                   (match parameters j with [] => script_src j
                    | _ => IMPORT_PARAMS ++ script_src j end)
                   (match parameters j with
                    | [] => fs
                    | ps => dict_set (get_params_path j) (params_content ps) fs end);
        st_trace := (tr ++ [(ReqCreateContainer (container_args j), state j)])%list |},
     Err (match dict_get "Id" c with Some _ => AssertionError | None => KeyError end))).
  { unfold prepare; unfold_monad; simpl.
    destruct (parameters j); simpl; unfold requests; simpl;
      rewrite ?container_args_script_src, Hcr; simpl;
      destruct (dict_get "Id" c) as [cid|]; simpl; try reflexivity;
      cbn in Hid; rewrite Hid; reflexivity. }
  split; [rewrite Hp; reflexivity|]. split.
  - unfold with_job, enter, bind; rewrite Hp; reflexivity.
  - rewrite Hp; cbn; unfold requests; cbn.
    split; [destruct (dict_get "Id" c); reflexivity|].
    split.
    + unfold has_container; destruct (dict_get "Id" c); cbn;
        destruct c; [congruence|reflexivity|congruence|reflexivity].
    + now rewrite map_app.
Qed.

Lemma with_job_bad_id_keeps_container_witness :
  rt_create_container empty_id_runtime (requests (init_st sample_job))
    (container_args (st_job (init_st sample_job))) =
    Ok [("Id", JStr EmptyString); ("Warnings", JNull)] /\
  with_job empty_id_runtime (start empty_id_runtime) (init_st sample_job) =
    (fst (prepare empty_id_runtime (init_st sample_job)), Err AssertionError).
Proof.
  split; [reflexivity|].
  exact (proj1 (proj2 (with_job_bad_id_keeps_container empty_id_runtime
           (start empty_id_runtime) (init_st sample_job)
           [("Id", JStr EmptyString); ("Warnings", JNull)]
           eq_refl ltac:(discriminate) eq_refl))).
Defined.

(* ------------------------------------------------------------------ *)
(** ** [prepare]: requests and outcome *)



(** The binds dict of the create request: distinct host directories give
    the resource directory read-only on [/golem/resources/] and the output
    directory read-write on [/golem/output/]; when both are the same path
    the dict keeps one entry, so that directory is mounted read-write on
    [/golem/output/] only and nothing is bound on [/golem/resources/]. *)
Theorem container_args_binds : forall j,
  (resource_dir j <> output_dir j ->
   ca_binds (container_args j) =
     [(resource_dir j, (RESOURCES_DIR, "ro")); (output_dir j, (OUTPUT_DIR, "rw"))]) /\
  (resource_dir j = output_dir j ->
   ca_binds (container_args j) = [(output_dir j, (OUTPUT_DIR, "rw"))]).
Proof.
  intros j; unfold container_args; cbn; split; intros H.
  - assert (E : String.eqb (output_dir j) (resource_dir j) = false)
      by (apply String.eqb_neq; congruence).
    now rewrite E.
  - rewrite H, String.eqb_refl; reflexivity.
Qed.

(* ------------------------------------------------------------------ *)
(** ** [cleanup] failures *)

(** If [cleanup] raises (status query, kill or removal failing), the job
    keeps its container handle and id, so a later [cleanup] tries again. *)
Theorem cleanup_error_keeps_handle : forall rt s e,
  snd (cleanup rt s) = Err e ->
  container (st_job (fst (cleanup rt s))) = container (st_job s) /\
  container_id (st_job (fst (cleanup rt s))) = container_id (st_job s).
Proof.
  intros rt [j fs tr] e H; cbn.
  unfold cleanup, get_status in *; unfold_monad.
  revert H; cbn; destruct (has_container j) eqn:Hc; cbn; [|discriminate].
  rewrite Hc; cbn.
  split_matches; cbn; intros H; try discriminate; split; reflexivity.
Qed.

Lemma cleanup_error_keeps_handle_witness :
  let s := run_ops failing_remove_runtime [OpPrepare; OpStart] (init_st sample_job) in
  snd (cleanup failing_remove_runtime s) = Err APIError /\
  container (st_job (fst (cleanup failing_remove_runtime s))) = container (st_job s) /\
  has_container (st_job (fst (cleanup failing_remove_runtime s))) = true.
Proof.
  cbv zeta.
  assert (H : snd (cleanup failing_remove_runtime
                (run_ops failing_remove_runtime [OpPrepare; OpStart] (init_st sample_job)))
              = Err APIError) by (vm_compute; reflexivity).
  split; [exact H|].
  split; [exact (proj1 (cleanup_error_keeps_handle failing_remove_runtime _ _ H))|].
  vm_compute; reflexivity.
Defined.

(* ------------------------------------------------------------------ *)
(** ** [is_available] queries the image twice *)

(** With a daemon whose image metadata does not change between requests,
    [is_available] answers [true] exactly when constructing the reference
    succeeds; in that case it has sent the same image query twice (once in
    the constructor, once in its own [_check]). *)
Theorem is_available_stable : forall rt repository id tag h,
  stable_images rt ->
  let img := image_fields repository id tag in
  (snd (is_available rt repository id tag h) = Ok true <->
   snd (new_image rt repository id tag h) = Ok img) /\
  (snd (new_image rt repository id tag h) = Ok img ->
   fst (is_available rt repository id tag h) =
     (h ++ [ReqInspectImage (query_key img); ReqInspectImage (query_key img)])%list).
Proof.
  intros rt repository id tag h Hst; cbv zeta.
  rewrite is_available_unfold; unfold is_available_body, bind.
  rewrite !new_image_unfold; cbv zeta.
  destruct (rt_inspect_image rt h (query_key (image_fields repository id tag)))
    as [[i|]|e] eqn:E.
  - destruct (image_matches (image_fields repository id tag) i) eqn:Hm.
    + unfold check, inspect_image, bind; rewrite (Hst _ h), E, Hm; cbn.
      rewrite <- app_assoc; split; [split; reflexivity|reflexivity].
    + cbn; split; [split; discriminate|discriminate].
  - cbn; split; [split; discriminate|discriminate].
  - destruct e; cbn; try destruct tag; split; try split; discriminate.
Qed.

Lemma is_available_stable_witness :
  stable_images sample_runtime /\
  snd (is_available sample_runtime "golem/base" None None []) = Ok true.
Proof.
  assert (Hs : stable_images sample_runtime) by (intros h h' k; reflexivity).
  split; [exact Hs|].
  apply (proj1 (is_available_stable sample_runtime "golem/base" None None [] Hs)).
  vm_compute; reflexivity.
Defined.

(* ------------------------------------------------------------------ *)
(** ** Which operations send which requests *)

Lemma count_reqs_app : forall p a b,
  count_reqs p (a ++ b) = count_reqs p a + count_reqs p b.
Proof. intros p a b; unfold count_reqs; rewrite filter_app, length_app; reflexivity. Qed.

Ltac ext_trace :=
  first [ exists []; rewrite app_nil_r; split; [reflexivity|]
        | eexists; split; [rewrite <- ?app_assoc; reflexivity|] ].

(** One driver operation only appends to the trace; of the requests it
    appends, a create comes only from [prepare] (exactly one), and a kill
    or a removal only from [cleanup] (at most one of each); only [prepare]
    writes files. *)
Lemma run_op_requests : forall rt o s,
  exists t,
    st_trace (fst (run_op rt o s)) = (st_trace s ++ t)%list /\
    count_reqs is_create (map fst t) = (if is_prepare_op o then 1 else 0) /\
    count_reqs is_kill (map fst t) <= (if is_cleanup_op o then 1 else 0) /\
    count_reqs is_remove_req (map fst t) <= (if is_cleanup_op o then 1 else 0) /\
    (is_prepare_op o = false -> st_fs (fst (run_op rt o s)) = st_fs s).
Proof.
  intros rt o [j fs tr]; destruct o; cbn [run_op];
  unfold prepare, start, wait, cleanup, get_status, get_logs; unfold_monad;
  split_matches; ext_trace; cbn; repeat split; try lia; discriminate.
Qed.


(** Kill and removal requests come only from [cleanup], at most one of
    each per call: over any sequence of driver operations no more are sent
    than there are [cleanup] operations. *)
Theorem run_ops_kill_remove_bound : forall rt ops s,
  count_reqs is_kill (requests (run_ops rt ops s)) <=
    count_reqs is_kill (requests s) + length (filter is_cleanup_op ops) /\
  count_reqs is_remove_req (requests (run_ops rt ops s)) <=
    count_reqs is_remove_req (requests s) + length (filter is_cleanup_op ops).
Proof.
  intros rt ops; induction ops as [|o ops IH]; intros s; cbn [run_ops filter length].
  - lia.
  - destruct (IH (fst (run_op rt o s))) as [IH1 IH2].
    destruct (run_op_requests rt o s) as (t & H1 & _ & H3 & H4 & _).
    assert (E : forall p, count_reqs p (requests (fst (run_op rt o s))) =
                          count_reqs p (requests s) + count_reqs p (map fst t))
      by (intros p; unfold requests; rewrite H1, map_app, count_reqs_app; reflexivity).
    rewrite E in IH1, IH2.
    destruct (is_cleanup_op o); cbn [filter length]; lia.
Qed.

(** Only [prepare] writes files: a sequence of driver operations without
    [prepare] leaves the files untouched. *)
Theorem run_ops_files_only_prepare : forall rt ops s,
  forallb (fun o => negb (is_prepare_op o)) ops = true ->
  st_fs (run_ops rt ops s) = st_fs s.
Proof.
  intros rt ops; induction ops as [|o ops IH]; intros s Hops; cbn in *.
  - reflexivity.
  - apply andb_prop in Hops as [Ho Hops].
    rewrite (IH _ Hops).
    destruct (run_op_requests rt o s) as (t & _ & _ & _ & _ & H5).
    apply H5; destruct (is_prepare_op o); [discriminate|reflexivity].
Qed.

Lemma run_ops_files_only_prepare_witness :
  let s := run_ops sample_runtime [OpPrepare] (init_st sample_job) in
  let ops := [OpStart; OpGetStatus; OpWait None; OpGetLogs; OpCleanup; OpCleanup] in
  forallb (fun o => negb (is_prepare_op o)) ops = true /\
  st_fs (run_ops sample_runtime ops s) = st_fs s.
Proof.
  cbv zeta; split; [reflexivity|].
  apply run_ops_files_only_prepare; reflexivity.
Defined.

(* ------------------------------------------------------------------ *)
(** ** Where the task files land *)

Lemma ends_with_slash_app : forall a b,
  b <> EmptyString -> ends_with_slash (a ++ b) = ends_with_slash b.
Proof.
  intros a b Hb; induction a as [|c a IH]; [reflexivity|].
  cbn [String.append]; rewrite <- IH.
  destruct a as [|c' a]; cbn [String.append].
  - destruct b; [contradiction|reflexivity].
  - reflexivity.
Qed.

(** For a job built by the constructor with a non-empty [work_dir] not
    ending in a slash, [job.py] and [params.py] are written in
    [resource_dir/work_dir], and the container runs [job.py] from
    [/golem/resources//work_dir]: the same relative path below the
    directory mounted on [/golem/resources/]. *)
Theorem task_paths_under_resources : forall img src ps wd rd od,
  wd <> EmptyString -> ends_with_slash wd = false ->
  let j := new_job img src ps wd rd od in
  get_script_path j = rd ++ "/" ++ wd ++ "/" ++ TASK_SCRIPT /\
  get_params_path j = rd ++ "/" ++ wd ++ "/" ++ PARAMS_FILE /\
  ca_working_dir (container_args j) = RESOURCES_DIR ++ "/" ++ wd /\
  ca_entrypoint (container_args j) = ["/usr/bin/python"; TASK_SCRIPT].
Proof.
  intros img src ps wd rd od Hne Hs; cbv zeta.
  assert (Ht : String.eqb (rd ++ "/" ++ wd) EmptyString || ends_with_slash (rd ++ "/" ++ wd)
               = false).
  { destruct wd as [|c w]; [contradiction|].
    rewrite !ends_with_slash_app by discriminate.
    rewrite Hs; destruct rd; reflexivity. }
  unfold get_script_path, get_params_path, path_join; cbn [new_job task_dir].
  unfold TASK_SCRIPT, PARAMS_FILE; rewrite Ht.
  rewrite <- !str_app_assoc; repeat split.
Qed.

Lemma task_paths_under_resources_witness :
  "job1" <> EmptyString /\ ends_with_slash "job1" = false /\
  get_script_path sample_job = "R/job1/job.py".
Proof.
  split; [discriminate|split; [reflexivity|]].
  destruct (task_paths_under_resources sample_image "print(x)"
              (Some [("x", PInt 3); ("y", PStr "a")]) "job1" "R" "O"
              ltac:(discriminate) eq_refl) as [H _].
  exact H.
Defined.

(* ------------------------------------------------------------------ *)
(** ** An empty image id *)

(** An empty-string id is falsy, so [_check] looks the image up by name;
    but [self.id is None] is false, so it still compares the reported
    ["Id"] with the empty string: whenever the daemon knows the image under
    a non-empty id, the constructor raises [ValueError]. *)
Theorem new_image_empty_id : forall rt repository tag h i,
  let img := image_fields repository (Some EmptyString) tag in
  rt_inspect_image rt h (img_name img) = Ok (Some i) ->
  Id i <> EmptyString ->
  query_key img = img_name img /\
  snd (new_image rt repository (Some EmptyString) tag h) = Err ValueError.
Proof.
  intros rt repository tag h i; cbv zeta; intros Hq Hid.
  assert (Hk : query_key (image_fields repository (Some EmptyString) tag) =
               img_name (image_fields repository (Some EmptyString) tag))
    by reflexivity.
  split; [exact Hk|].
  rewrite new_image_unfold; cbv zeta; rewrite Hk, Hq.
  unfold image_matches; cbn [img_id image_fields].
  destruct (String.eqb (Id i) EmptyString) eqn:E.
  - apply String.eqb_eq in E; contradiction.
  - rewrite andb_false_r; reflexivity.
Qed.

Lemma new_image_empty_id_witness :
  rt_inspect_image sample_runtime []
    (img_name (image_fields "golem/base" (Some EmptyString) None)) =
    Ok (Some {| RepoTags := ["golem/base:latest"]; Id := "sha256:ab" |}) /\
  snd (new_image sample_runtime "golem/base" (Some EmptyString) None []) = Err ValueError.
Proof.
  assert (Hq : rt_inspect_image sample_runtime []
                 (img_name (image_fields "golem/base" (Some EmptyString) None)) =
               Ok (Some {| RepoTags := ["golem/base:latest"]; Id := "sha256:ab" |}))
    by (vm_compute; reflexivity).
  split; [exact Hq|].
  exact (proj2 (new_image_empty_id sample_runtime "golem/base" None [] _ Hq
                  ltac:(discriminate))).
Defined.

(* ------------------------------------------------------------------ *)
(** ** After [cleanup] *)

Lemma cleanup_ok_removed : forall rt s s',
  has_container (st_job s) = true -> cleanup rt s = (s', Ok tt) ->
  state (st_job s') = STATE_REMOVED.
Proof.
  intros rt [j fs tr] s' Hc H; cbn in Hc.
  unfold cleanup, get_status in H; unfold_monad; cbn in H; rewrite Hc in H.
  revert H; split_matches; intros H; inversion H; reflexivity.
Qed.

(** A job without a handle whose cached state is [removed] is left
    exactly as it is by every driver operation other than [prepare]: the
    status is answered from the cache, which is neither [created] (so
    [start] does nothing) nor [running]/[exited] (so [wait] answers -1),
    and [cleanup] and [get_logs] find no container. *)
Lemma removed_run_op_inert : forall rt o s,
  is_prepare_op o = false ->
  has_container (st_job s) = false -> state (st_job s) = STATE_REMOVED ->
  run_op rt o s = (s, Ok tt).
Proof.
  intros rt o [j fs tr] Ho Hc Hs; cbn in Hc, Hs.
  destruct o; cbn [run_op] in *; try discriminate;
  unfold start, wait, cleanup, get_status, get_logs; unfold_monad; cbn;
  rewrite ?Hc; cbn; rewrite ?Hs; reflexivity.
Qed.

(** Once [cleanup] has returned normally on a job holding a container,
    no later operation except [prepare] contacts the daemon or changes the
    job: any such sequence leaves the state as it is, [get_status] answers
    [removed], [start] answers [None], [wait] answers -1 whatever the
    timeout, and [get_logs] answers [None]. *)
Theorem after_cleanup_inert : forall rt s s' ops,
  has_container (st_job s) = true ->
  cleanup rt s = (s', Ok tt) ->
  forallb (fun o => negb (is_prepare_op o)) ops = true ->
  run_ops rt ops s' = s' /\
  get_status rt s' = (s', Ok STATE_REMOVED) /\
  start rt s' = (s', Ok None) /\
  (forall t, wait rt t s' = (s', Ok (-1)%Z)) /\
  get_logs rt s' = (s', Ok None).
Proof.
  intros rt s s' ops Hc H Hops.
  assert (Hn := cleanup_ok_no_handle rt s s' H).
  assert (Hr := cleanup_ok_removed rt s s' Hc H).
  destruct s' as [j fs tr]; cbn in Hn, Hr.
  split; [|split; [|split; [|split]]].
  - induction ops as [|o ops IH]; cbn in *; [reflexivity|].
    apply andb_prop in Hops as [Ho Hops].
    rewrite removed_run_op_inert; cbn; [apply IH; exact Hops| |exact Hn|exact Hr].
    destruct (is_prepare_op o); [discriminate|reflexivity].
  - unfold get_status; unfold_monad; cbn; rewrite Hn, Hr; reflexivity.
  - unfold start, get_status; unfold_monad; cbn; rewrite Hn; cbn; rewrite Hr; reflexivity.
  - intros t; unfold wait, get_status; unfold_monad; cbn; rewrite Hn; cbn; rewrite Hr;
      reflexivity.
  - unfold get_logs; unfold_monad; cbn; rewrite Hn; reflexivity.
Qed.

Lemma after_cleanup_inert_witness :
  let s := run_ops sample_runtime [OpPrepare; OpStart] (init_st sample_job) in
  let s' := fst (cleanup sample_runtime s) in
  has_container (st_job s) = true /\
  cleanup sample_runtime s = (s', Ok tt) /\
  run_ops sample_runtime [OpStart; OpWait None; OpGetLogs; OpCleanup] s' = s'.
Proof.
  cbv zeta.
  assert (Hc : has_container (st_job (run_ops sample_runtime [OpPrepare; OpStart]
                                         (init_st sample_job))) = true)
    by (vm_compute; reflexivity).
  assert (H : cleanup sample_runtime
                (run_ops sample_runtime [OpPrepare; OpStart] (init_st sample_job)) =
              (fst (cleanup sample_runtime
                 (run_ops sample_runtime [OpPrepare; OpStart] (init_st sample_job))), Ok tt))
    by (vm_compute; reflexivity).
  split; [exact Hc|split; [exact H|]].
  exact (proj1 (after_cleanup_inert sample_runtime _ _
                  [OpStart; OpWait None; OpGetLogs; OpCleanup] Hc H eq_refl)).
Defined.
